(** * AITuringTest.jsx: the session controller of the AI-judge Turing test

    A shallow embedding of [src/components/AITuringTest.jsx]: the three
    prompt templates, [formatOutput], the seven [useState] cells of the
    [AIJudge] component, its handlers ([generateQuestion], [getAIAnswer],
    [getJudgement], [handleSubmitAnswer], [startNewTest]) and the part of
    the JSX that decides which control is rendered and whether it is
    disabled.

    JavaScript strings are sequences of UTF-16 code units; [trim] and
    [replace] follow ECMA-262.  The handlers are written in a small
    state-and-exception monad whose state is the React store together
    with the trace of effects issued so far. *)

From Stdlib Require Import String Ascii NArith Bool Arith Lia List.
Import ListNotations.

Open Scope list_scope.

(* ================================================================= *)
(** ** JavaScript strings *)

(** A JavaScript string: its UTF-16 code units, in order. *)
Definition jsstring := list N.

(** An ASCII literal of the source as a JavaScript string. *)
Definition lit (s : string) : jsstring :=
  map N_of_ascii (list_ascii_of_string s).

Arguments lit : simpl never.

(** The escape [\n] of a JavaScript literal. *)
Definition LF : jsstring := [10%N].

(** ECMA-262 WhiteSpace and LineTerminator code points, the ones
    [String.prototype.trim] strips: TAB, VT, FF, SP, NBSP, ZWNBSP, the
    category Zs, and LF, CR, LS, PS. *)
Definition isWhiteSpace (c : N) : bool :=
  (N.eqb c 9 || N.eqb c 10 || N.eqb c 11 || N.eqb c 12 || N.eqb c 13
   || N.eqb c 32 || N.eqb c 160 || N.eqb c 5760
   || (N.leb 8192 c && N.leb c 8202)
   || N.eqb c 8232 || N.eqb c 8233 || N.eqb c 8239 || N.eqb c 8287
   || N.eqb c 12288 || N.eqb c 65279)%bool.

Fixpoint trimStart (s : jsstring) : jsstring :=
  match s with
  | [] => []
  | c :: s' => if isWhiteSpace c then trimStart s' else s
  end.

Definition trimEnd (s : jsstring) : jsstring := rev (trimStart (rev s)).

(** [String.prototype.trim]. *)
Definition trim (s : jsstring) : jsstring := trimEnd (trimStart s).

Arguments trim : simpl never.

(** JavaScript truthiness of a string: the empty string is falsy. *)
Definition truthy (s : jsstring) : bool :=
  match s with [] => false | _ :: _ => true end.

(** [s.startsWith(p)]. *)
Fixpoint startsWith (p s : jsstring) : bool :=
  match p, s with
  | [], _ => true
  | _ :: _, [] => false
  | x :: p', y :: s' => N.eqb x y && startsWith p' s'
  end.

(** [s.indexOf(p)]: the least index at which [p] occurs in [s]. *)
Fixpoint indexOf (p s : jsstring) : option nat :=
  if startsWith p s then Some 0
  else match s with
       | [] => None
       | _ :: s' => option_map S (indexOf p s')
       end.

(** [s.includes(p)]. *)
Definition includes (p s : jsstring) : bool :=
  match indexOf p s with Some _ => true | None => false end.

(** ECMA-262 GetSubstitution for a string pattern (no capture groups):
    in the replacement text [$$] stands for a dollar sign, [$&] for the
    matched text, [$`] for the text before the match and [$'] for the
    text after it; every other code unit stands for itself. *)
Fixpoint getSubstitution (matched before after template : jsstring)
  : jsstring :=
  match template with
  | [] => []
  | c :: rest =>
      if N.eqb c 36 then
        match rest with
        | d :: rest' =>
            if N.eqb d 36 then
              36%N :: getSubstitution matched before after rest'
            else if N.eqb d 38 then
              matched ++ getSubstitution matched before after rest'
            else if N.eqb d 96 then
              before ++ getSubstitution matched before after rest'
            else if N.eqb d 39 then
              after ++ getSubstitution matched before after rest'
            else c :: getSubstitution matched before after rest
        | [] => [c]
        end
      else c :: getSubstitution matched before after rest
  end.

(** [s.replace(pattern, replacement)] with a string pattern: only the
    first occurrence is replaced; without an occurrence [s] is returned
    as it is. *)
Definition replace (pattern replacement s : jsstring) : jsstring :=
  match indexOf pattern s with
  | None => s
  | Some i =>
      let before := firstn i s in
      let after := skipn (i + length pattern) s in
      before ++ getSubstitution pattern before after replacement ++ after
  end.

(* ================================================================= *)
(** ** The templates *)

Definition QUESTION_PROMPT : jsstring :=
  lit "Generate an interesting, open-ended question that could reveal thought patterns. The question should encourage detailed, thoughtful responses. Only respond with the question itself, nothing else. The question should be answerable with a single line".

Definition AI_ANSWER_PROMPT : jsstring :=
  lit "You are participating in a conversation. Answer the following question thoughtfully and naturally, as if you were having a real conversation: ".

(** The first line of the [JUDGE_PROMPT] literal ends in a space; the
    literal is cut after it so that the space shows. *)
Definition JUDGE_PROMPT : jsstring :=
  lit "You are an AI judge analyzing two responses to the same question. One response is from a human and one is from an AI. " ++ lit "

Your task is to determine which is which and provide your analysis in markdown format using this structure:

# AI Judge's Analysis

## Response Analysis

### Response 1

*Analysis:* [Your detailed analysis of why this seems human or AI]

### Response 2

*Analysis:* [Your detailed analysis of why this seems human or AI]

## Verdict
[Your final determination of which response is human vs AI and a brief summary of key factors]".

(** The template literal of [formatOutput]: each [\n] escape is an
    [LF]; the line breaks of the literal itself are kept in the pieces. *)
Definition formatOutput (question userAnswer aiAnswer verdict : jsstring)
  : jsstring :=
  lit "# AI Turing Test Results" ++ LF ++ LF ++ lit "
## The Question
" ++ question ++ LF ++ LF ++ lit "
## Human Response
" ++ userAnswer ++ LF ++ LF ++ lit "
## AI Response
" ++ aiAnswer ++ LF ++ LF ++ lit "
---
" ++ verdict.

(* ================================================================= *)
(** ** The session: the seven [useState] cells of [AIJudge] *)

(** The values [currentState] takes: 'initial', 'answering', 'complete'. *)
Inductive State := Initial | Answering | Complete.

Record Session := mkSession {
  currentState : State;
  question : jsstring;
  userAnswer : jsstring;
  aiAnswer : jsstring;
  verdict : jsstring;
  isProcessing : bool;
  error : jsstring
}.

(** The arguments of the seven [useState] calls. *)
Definition initialSession : Session :=
  mkSession Initial [] [] [] [] false [].

(** The effects a handler can issue: a write to one of the cells, a
    call of [model.generateContent], a line on the console. *)
Inductive Exn :=
| JsError (message : jsstring)
| ServiceFailure.

Inductive Effect :=
| SetCurrentState (v : State)
| SetQuestion (v : jsstring)
| SetUserAnswer (v : jsstring)
| SetAiAnswer (v : jsstring)
| SetVerdict (v : jsstring)
| SetIsProcessing (v : bool)
| SetError (v : jsstring)
| GenerateContent (prompt : jsstring)
| ConsoleError (label : jsstring) (e : Exn).

(** What a write does to the store; the other effects leave it alone. *)
Definition apply (e : Effect) (s : Session) : Session :=
  match e with
  | SetCurrentState v =>
      mkSession v (question s) (userAnswer s) (aiAnswer s) (verdict s)
        (isProcessing s) (error s)
  | SetQuestion v =>
      mkSession (currentState s) v (userAnswer s) (aiAnswer s) (verdict s)
        (isProcessing s) (error s)
  | SetUserAnswer v =>
      mkSession (currentState s) (question s) v (aiAnswer s) (verdict s)
        (isProcessing s) (error s)
  | SetAiAnswer v =>
      mkSession (currentState s) (question s) (userAnswer s) v (verdict s)
        (isProcessing s) (error s)
  | SetVerdict v =>
      mkSession (currentState s) (question s) (userAnswer s) (aiAnswer s) v
        (isProcessing s) (error s)
  | SetIsProcessing v =>
      mkSession (currentState s) (question s) (userAnswer s) (aiAnswer s)
        (verdict s) v (error s)
  | SetError v =>
      mkSession (currentState s) (question s) (userAnswer s) (aiAnswer s)
        (verdict s) (isProcessing s) v
  | GenerateContent _ | ConsoleError _ _ => s
  end.

Definition isCall (e : Effect) : bool :=
  match e with GenerateContent _ => true | _ => false end.

(** The network calls of a trace, in order. *)
Definition calls (t : list Effect) : list Effect := filter isCall t.

(* ================================================================= *)
(** ** The text service and the handler monad *)

(** What [model.generateContent(prompt)], [result.response] and
    [response.text()] give together: the completion text, or a rejection
    or exception somewhere on the way. *)
Inductive Outcome :=
| Completion (text : jsstring)
| Rejected.

(** The service answers a prompt knowing how many calls came before. *)
Definition Service := nat -> jsstring -> Outcome.

(** The store is what the setters write; a handler READS the cells from
    the render it was created in (its closure), which the setters do not
    change.  The trace lists the effects issued, oldest first. *)
Record World := mkWorld {
  store : Session;
  trace : list Effect
}.

Inductive Result (A : Type) :=
| Returned (a : A)
| Thrown (e : Exn).

Arguments Returned {A} a.
Arguments Thrown {A} e.

Definition Async (A : Type) := World -> Result A * World.

Definition ret {A} (a : A) : Async A := fun w => (Returned a, w).

Definition bind {A B} (m : Async A) (k : A -> Async B) : Async B :=
  fun w =>
    match m w with
    | (Returned a, w') => k a w'
    | (Thrown e, w') => (Thrown e, w')
    end.

Definition throw {A} (e : Exn) : Async A := fun w => (Thrown e, w).

Notation "x <- m ;; k" := (bind m (fun x => k))
  (at level 61, m at next level, right associativity).
Notation "m ;; k" := (bind m (fun _ => k))
  (at level 61, right associativity).

(** Issue an effect: log it and let it act on the store. *)
Definition emit (e : Effect) : Async unit :=
  fun w => (Returned tt, mkWorld (apply e (store w)) (trace w ++ [e])).

(** [try { body } catch (e) { handler } finally { cleanup }]. *)
Definition try_catch_finally {A} (body : Async A) (handler : Exn -> Async A)
    (cleanup : Async unit) : Async A :=
  fun w =>
    let (r, w1) :=
      match body w with
      | (Returned a, w1) => (Returned a, w1)
      | (Thrown e, w1) => handler e w1
      end in
    match cleanup w1 with
    | (Returned _, w2) => (r, w2)
    | (Thrown e, w2) => (Thrown e, w2)
    end.

Section Handlers.

Variable svc : Service.

(** [await model.generateContent(prompt)] down to [response.text()]. *)
Definition generateContent (prompt : jsstring) : Async jsstring :=
  fun w =>
    let n := List.length (calls (trace w)) in
    let w' := mkWorld (store w) (trace w ++ [GenerateContent prompt]) in
    match svc n prompt with
    | Completion text => (Returned text, w')
    | Rejected => (Thrown ServiceFailure, w')
    end.

Definition generateQuestion : Async unit :=
  emit (SetIsProcessing true) ;;
  emit (SetError []) ;;
  try_catch_finally
    (questionText <- generateContent QUESTION_PROMPT ;;
     (if negb (truthy (trim questionText))
      then throw (JsError (lit "Generated question was empty"))
      else ret tt) ;;
     emit (SetQuestion questionText) ;;
     emit (SetCurrentState Answering))
    (fun e =>
       emit (ConsoleError (lit "Error generating question:") e) ;;
       emit (SetError (lit "Failed to generate question. Please try again.")))
    (emit (SetIsProcessing false)).

(** The handlers below read [question], [userAnswer] and [aiAnswer]:
    the constants of the render [snap] they close over. *)
Variable snap : Session.

Definition getAIAnswer : Async jsstring :=
  answerText <- generateContent (AI_ANSWER_PROMPT ++ question snap) ;;
  (if negb (truthy (trim answerText))
   then throw (JsError (lit "AI generated an empty response"))
   else ret tt) ;;
  ret answerText.

(** The argument of [generateContent] in [getJudgement]. *)
Definition judgePrompt : jsstring :=
  replace (lit "{aiResponse}") (aiAnswer snap)
    (replace (lit "{humanResponse}") (userAnswer snap)
       (replace (lit "{question}") (question snap) JUDGE_PROMPT)).

Definition getJudgement : Async jsstring :=
  judgementText <- generateContent judgePrompt ;;
  (if negb (truthy (trim judgementText))
   then throw (JsError (lit "Judge generated an empty response"))
   else ret tt) ;;
  ret judgementText.

Definition handleSubmitAnswer : Async unit :=
  if negb (truthy (trim (userAnswer snap))) then
    emit (SetError (lit "Please enter your answer before submitting."))
  else
    emit (SetIsProcessing true) ;;
    emit (SetError []) ;;
    try_catch_finally
      (aiResponseText <- getAIAnswer ;;
       emit (SetAiAnswer aiResponseText) ;;
       judgement <- getJudgement ;;
       emit (SetVerdict judgement) ;;
       emit (SetCurrentState Complete))
      (fun e =>
         emit (ConsoleError (lit "Error in process:") e) ;;
         emit (SetError (lit "An error occurred. Please try again.")))
      (emit (SetIsProcessing false)).

End Handlers.

Definition startNewTest : Async unit :=
  emit (SetCurrentState Initial) ;;
  emit (SetQuestion []) ;;
  emit (SetUserAnswer []) ;;
  emit (SetAiAnswer []) ;;
  emit (SetVerdict []) ;;
  emit (SetError []).

(** A handler invoked on a session at rest: its closure is the render of
    that session, the trace starts empty. *)
Definition run {A} (m : Async A) (s : Session) : World :=
  snd (m (mkWorld s [])).

(* ================================================================= *)
(** ** What the JSX renders, and which user events it lets through *)

Inductive Handler := OnGenerateQuestion | OnSubmitAnswer | OnStartNewTest.

(** The parts of the returned JSX that depend on the session. *)
Inductive Widget :=
| ErrorBanner (message : jsstring)
| Button (onClick : Handler) (disabled : bool) (label : jsstring)
| QuestionText (text : jsstring)
| TextArea (value : jsstring) (disabled : bool)
| Markdown (document : jsstring).

Definition render (s : Session) : list Widget :=
  (if truthy (error s) then [ErrorBanner (error s)] else [])
  ++ match currentState s with
     | Initial =>
         [Button OnGenerateQuestion (isProcessing s) (lit "Generate Question")]
     | Answering =>
         [QuestionText (question s);
          TextArea (userAnswer s) (isProcessing s);
          Button OnSubmitAnswer (isProcessing s)
            (if isProcessing s then lit "Processing..."
             else lit "Submit Answer")]
     | Complete =>
         [Markdown (formatOutput (question s) (userAnswer s) (aiAnswer s)
                      (verdict s));
          Button OnStartNewTest false (lit "Start New Test")]
     end.

(** What the user can do to the page. *)
Inductive UserEvent :=
| Click (h : Handler)
| Change (value : jsstring).

Definition offers (ev : UserEvent) (wd : Widget) : bool :=
  match ev, wd with
  | Click OnGenerateQuestion, Button OnGenerateQuestion false _ => true
  | Click OnSubmitAnswer, Button OnSubmitAnswer false _ => true
  | Click OnStartNewTest, Button OnStartNewTest false _ => true
  | Change _, TextArea _ false => true
  | _, _ => false
  end.

Definition handlerOf (svc : Service) (snap : Session) (ev : UserEvent)
  : Async unit :=
  match ev with
  | Click OnGenerateQuestion => generateQuestion svc
  | Click OnSubmitAnswer => handleSubmitAnswer svc snap
  | Click OnStartNewTest => startNewTest
  | Change value => emit (SetUserAnswer value)
  end.

(** Modelled from the spec: the [Button] component of [./ui/button] is
    not among the sources.  Following the renderer boundary of the spec
    (it displays text and invokes the callbacks on user action) it is
    taken to hand [disabled] and [onClick] to the DOM button, where, as
    for the [textarea], a disabled control fires no event.  An event on a
    control that is rendered and enabled runs its handler, whose closure
    is the session rendered. *)
Definition fire (svc : Service) (ev : UserEvent) (s : Session) : World :=
  if existsb (offers ev) (render s)
  then run (handlerOf svc s ev) s
  else mkWorld s [].

(** The sessions the page can be in between two user events. *)
Inductive Reachable : Session -> Prop :=
| reach_initial : Reachable initialSession
| reach_fire (svc : Service) (ev : UserEvent) (s : Session) :
    Reachable s -> Reachable (store (fire svc ev s)).

(** A text that [trim] does not empty. *)
Definition nonblank (t : jsstring) : Prop := truthy (trim t) = true.

(** What holds of a session between two user events: no call is
    pending, a question on display is not blank, and neither is any of
    the four texts of a finished test. *)
Definition restInv (s : Session) : Prop :=
  isProcessing s = false
  /\ match currentState s with
     | Initial => True
     | Answering => nonblank (question s)
     | Complete =>
         nonblank (question s) /\ nonblank (userAnswer s)
         /\ nonblank (aiAnswer s) /\ nonblank (verdict s)
     end.

(** [parts] occur in [doc] one after the other, without overlap. *)
Fixpoint inOrder (parts : list jsstring) (doc : jsstring) : Prop :=
  match parts with
  | [] => True
  | p :: ps => exists pre post, doc = pre ++ p ++ post /\ inOrder ps post
  end.

(** The writes of a trace touch only [error] and [isProcessing]. *)
Definition writesOnlyErrorAndFlag (e : Effect) : bool :=
  match e with
  | SetError _ | SetIsProcessing _ | GenerateContent _ | ConsoleError _ _ =>
      true
  | _ => false
  end.

Definition isFlagWrite (e : Effect) : bool :=
  match e with SetIsProcessing _ => true | _ => false end.

(** The stored question, AI answer or verdict of a write, if it is one. *)
Definition storedText (e : Effect) : option jsstring :=
  match e with
  | SetQuestion v | SetAiAnswer v | SetVerdict v => Some v
  | _ => None
  end.

(** Replaying a trace on a session. *)
Definition replay (t : list Effect) (s : Session) : Session :=
  fold_left (fun acc e => apply e acc) t s.

(** The store at the moment of each network call of a trace replayed
    from [s]: the session a user event would meet while that call is
    pending. *)
Fixpoint sessionsAtCalls (t : list Effect) (s : Session) : list Session :=
  match t with
  | [] => []
  | e :: t' =>
      (if isCall e then [s] else []) ++ sessionsAtCalls t' (apply e s)
  end.

(** The value of [isProcessing] at each of these moments. *)
Definition flagAtCalls (t : list Effect) (s : Session) : list bool :=
  map isProcessing (sessionsAtCalls t s).

(** While a network call of the run [w] started from [s] is pending,
    [isProcessing] is true: the run opens by setting the flag, closes by
    clearing it, does not write it in between, and the store holds
    [true] at every call. *)
Definition flagHeld (s : Session) (w : World) : Prop :=
  (exists mid,
      trace w = SetIsProcessing true :: mid ++ [SetIsProcessing false]
      /\ existsb isFlagWrite mid = false)
  /\ forallb (fun b : bool => b) (flagAtCalls (trace w) s) = true
  /\ isProcessing (store w) = false.

(** Every question, AI answer or verdict that a run writes is a text
    that [trim] leaves non-empty. *)
Definition storesNoBlank (w : World) : Prop :=
  forall e v, In e (trace w) -> storedText e = Some v -> nonblank v.

(** The effects of the [catch] and [finally] blocks of
    [generateQuestion] and of [handleSubmitAnswer]. *)
Definition questionFailure (e : Exn) : list Effect :=
  [ConsoleError (lit "Error generating question:") e;
   SetError (lit "Failed to generate question. Please try again.");
   SetIsProcessing false].

Definition submitFailure (e : Exn) : list Effect :=
  [ConsoleError (lit "Error in process:") e;
   SetError (lit "An error occurred. Please try again.");
   SetIsProcessing false].

(* ================================================================= *)
(** ** Concrete sessions and services *)

Definition sampleQuestion : jsstring := lit "What is your favorite memory?".
Definition sampleHuman : jsstring := lit "My first bike ride.".
Definition sampleAi : jsstring := lit "A summer afternoon by the lake.".
Definition sampleVerdict : jsstring :=
  lit "# AI Judge's Analysis
...Verdict: Response 1 is human.
".

(** The question is shown and the answer typed; nothing was submitted. *)
Definition typedSession : Session :=
  mkSession Answering sampleQuestion sampleHuman [] [] false [].

(** The same session while its submission is pending. *)
Definition pendingSession : Session :=
  mkSession Answering sampleQuestion sampleHuman [] [] true [].

(** The same session with an AI answer in its cell. *)
Definition answeredSession : Session :=
  mkSession Answering sampleQuestion sampleHuman sampleAi [] false [].

(** The question is shown, the answer box holds blanks only. *)
Definition blankAnswerSession : Session :=
  mkSession Answering sampleQuestion (lit "  ") [] [] false [].

Definition completeSession : Session :=
  mkSession Complete sampleQuestion sampleHuman sampleAi sampleVerdict
    false [].

(** A record in state Complete whose flag is up. *)
Definition flaggedCompleteSession : Session :=
  mkSession Complete sampleQuestion sampleHuman sampleAi sampleVerdict
    true [].

(** Answers the first call with the sample question. *)
Definition questionService : Service := fun _ _ => Completion sampleQuestion.

(** Answers every call with the empty string. *)
Definition emptyService : Service := fun _ _ => Completion [].

(** Always rejects. *)
Definition downService : Service := fun _ _ => Rejected.

(** Answers the first call with the sample AI answer and the second
    with the sample verdict. *)
Definition judgeService : Service :=
  fun n _ =>
    match n with
    | 0 => Completion sampleAi
    | _ => Completion sampleVerdict
    end.

(** Answers the first call with the sample AI answer and rejects the
    second. *)
Definition judgeDownService : Service :=
  fun n _ =>
    match n with
    | 0 => Completion sampleAi
    | _ => Rejected
    end.

(* ================================================================= *)
(** ** Further notions used by the theorems *)

(** The cells are filled in the order question, human answer, AI
    answer, verdict: before a question arrives all four are empty, and
    a verdict is present only in state Complete, where the error cell is
    empty. *)
Definition populatedInOrder (s : Session) : Prop :=
  match currentState s with
  | Initial =>
      question s = [] /\ userAnswer s = [] /\ aiAnswer s = []
      /\ verdict s = []
  | Answering => verdict s = []
  | Complete => error s = []
  end.

(** The sessions a user event can meet: the page at rest, or the
    page as it stands while a call of the running handler is pending
    (the handler is suspended in its [await]). *)
Inductive Shown : Session -> Prop :=
| shown_at_rest (s : Session) : Reachable s -> Shown s
| shown_pending (svc : Service) (ev : UserEvent) (s p : Session) :
    Reachable s ->
    In p (sessionsAtCalls (trace (fire svc ev s)) s) ->
    Shown p.

(** The moves of the state cell: each state, the click that leaves it,
    and the state the click leads to. *)
Definition move (from : State) (ev : UserEvent) (to : State) : Prop :=
  (from = Initial /\ ev = Click OnGenerateQuestion /\ to = Answering)
  \/ (from = Answering /\ ev = Click OnSubmitAnswer /\ to = Complete)
  \/ (from = Complete /\ ev = Click OnStartNewTest /\ to = Initial).

(** What [formatOutput] puts between the question and the human
    response. *)
Definition humanHeading : jsstring :=
  LF ++ LF ++ lit "
## Human Response
".

(** The three messages the handlers put in the error cell. *)
Definition handlerMessages : list jsstring :=
  [lit "Failed to generate question. Please try again.";
   lit "Please enter your answer before submitting.";
   lit "An error occurred. Please try again."].

(* ================================================================= *)
(** ** The embedding agrees with the literals of the source *)

Example template_lengths :
  (length QUESTION_PROMPT, length AI_ANSWER_PROMPT, length JUDGE_PROMPT)
  = (248, 142, 547).
Proof. vm_compute. reflexivity. Qed.

Example replace_first_only :
  replace (lit "{x}") (lit "a$$b$&") (lit "1{x}2{x}3") = lit "1a$b{x}2{x}3".
Proof. vm_compute. reflexivity. Qed.

Example trim_strips_both_ends :
  trim (9 :: 160 :: lit " a b " ++ [8233; 10])%N = lit "a b".
Proof. vm_compute. reflexivity. Qed.

(* ================================================================= *)
(** ** Strings *)

Lemma replace_absent (pattern replacement s : jsstring) :
  indexOf pattern s = None -> replace pattern replacement s = s.
Proof. unfold replace. intros ->. reflexivity. Qed.

Lemma nonblank_nonempty (t : jsstring) : nonblank t -> t <> [].
Proof. intros H ->. discriminate H. Qed.

(** None of the three tokens that [getJudgement] replaces occurs in
    [JUDGE_PROMPT]. *)
Lemma JUDGE_PROMPT_has_no_placeholder :
  indexOf (lit "{question}") JUDGE_PROMPT = None
  /\ indexOf (lit "{humanResponse}") JUDGE_PROMPT = None
  /\ indexOf (lit "{aiResponse}") JUDGE_PROMPT = None.
Proof. repeat split; vm_compute; reflexivity. Qed.

(** So the three [replace] calls return the template as it is. *)
Lemma judgePrompt_is_template (snap : Session) :
  judgePrompt snap = JUDGE_PROMPT.
Proof.
  destruct JUDGE_PROMPT_has_no_placeholder as (Hq & Hh & Ha).
  unfold judgePrompt.
  rewrite (replace_absent _ (question snap) _ Hq).
  rewrite (replace_absent _ (userAnswer snap) _ Hh).
  apply replace_absent, Ha.
Qed.

(* ================================================================= *)
(** ** The runs of the handlers, effect by effect *)

Lemma generateQuestion_run (svc : Service) (s : Session) :
  run (generateQuestion svc) s =
  let t :=
    SetIsProcessing true :: SetError [] :: GenerateContent QUESTION_PROMPT ::
    match svc 0 QUESTION_PROMPT with
    | Completion text =>
        if truthy (trim text)
        then [SetQuestion text; SetCurrentState Answering;
              SetIsProcessing false]
        else questionFailure (JsError (lit "Generated question was empty"))
    | Rejected => questionFailure ServiceFailure
    end in
  mkWorld (replay t s) t.
Proof.
  unfold run, generateQuestion, try_catch_finally, bind, emit, generateContent.
  cbn.
  destruct (svc 0 QUESTION_PROMPT) as [text|]; cbn; [|reflexivity].
  destruct (truthy (trim text)); reflexivity.
Qed.

Lemma getAIAnswer_result (svc : Service) (snap s : Session) :
  fst (getAIAnswer svc snap (mkWorld s [])) =
  match svc 0 (AI_ANSWER_PROMPT ++ question snap) with
  | Completion text =>
      if truthy (trim text) then Returned text
      else Thrown (JsError (lit "AI generated an empty response"))
  | Rejected => Thrown ServiceFailure
  end.
Proof.
  unfold getAIAnswer, bind, generateContent. cbn.
  destruct (svc 0 _) as [text|]; cbn; [|reflexivity].
  destruct (truthy (trim text)); reflexivity.
Qed.

Lemma getJudgement_result (svc : Service) (snap s : Session) :
  fst (getJudgement svc snap (mkWorld s [])) =
  match svc 0 (judgePrompt snap) with
  | Completion text =>
      if truthy (trim text) then Returned text
      else Thrown (JsError (lit "Judge generated an empty response"))
  | Rejected => Thrown ServiceFailure
  end.
Proof.
  unfold getJudgement, bind, generateContent. cbn.
  destruct (svc 0 _) as [text|]; cbn; [|reflexivity].
  destruct (truthy (trim text)); reflexivity.
Qed.

Lemma handleSubmitAnswer_run (svc : Service) (snap s : Session) :
  run (handleSubmitAnswer svc snap) s =
  let t :=
    if truthy (trim (userAnswer snap)) then
      SetIsProcessing true :: SetError [] ::
      GenerateContent (AI_ANSWER_PROMPT ++ question snap) ::
      match svc 0 (AI_ANSWER_PROMPT ++ question snap) with
      | Completion answerText =>
          if truthy (trim answerText) then
            SetAiAnswer answerText :: GenerateContent (judgePrompt snap) ::
            match svc 1 (judgePrompt snap) with
            | Completion judgementText =>
                if truthy (trim judgementText)
                then [SetVerdict judgementText; SetCurrentState Complete;
                      SetIsProcessing false]
                else submitFailure
                       (JsError (lit "Judge generated an empty response"))
            | Rejected => submitFailure ServiceFailure
            end
          else submitFailure (JsError (lit "AI generated an empty response"))
      | Rejected => submitFailure ServiceFailure
      end
    else [SetError (lit "Please enter your answer before submitting.")] in
  mkWorld (replay t s) t.
Proof.
  unfold run, handleSubmitAnswer.
  destruct (truthy (trim (userAnswer snap))); cbn; [|reflexivity].
  unfold try_catch_finally, bind, emit, getAIAnswer, getJudgement,
    generateContent, bind.
  cbn.
  destruct (svc 0 _) as [answerText|]; cbn; [|reflexivity].
  destruct (truthy (trim answerText)); cbn; [|reflexivity].
  destruct (svc 1 _) as [judgementText|]; cbn; [|reflexivity].
  destruct (truthy (trim judgementText)); reflexivity.
Qed.

Lemma startNewTest_run (s : Session) :
  run startNewTest s =
  mkWorld (mkSession Initial [] [] [] [] (isProcessing s) [])
    [SetCurrentState Initial; SetQuestion []; SetUserAnswer [];
     SetAiAnswer []; SetVerdict []; SetError []].
Proof. reflexivity. Qed.

(* ================================================================= *)
(** ** An invariant of the sessions at rest *)

(** Replays the trace at hand once the outcome of a call is known. *)
Ltac settle := unfold replay, questionFailure, submitFailure; cbn.

(** Splits on the outcome of the next call and on the blank test. *)
Ltac outcome svc n :=
  let text := fresh "text" in
  let Hsvc := fresh "Hsvc" in
  let Htext := fresh "Htext" in
  destruct (svc n _) as [text|] eqn:Hsvc;
  [destruct (truthy (trim text)) eqn:Htext|].

Lemma restInv_initial : restInv initialSession.
Proof. split; [reflexivity | exact I]. Qed.

Lemma fire_preserves_restInv (svc : Service) (ev : UserEvent) (s : Session) :
  restInv s -> restInv (store (fire svc ev s)).
Proof.
  destruct s as [st q ua ai v flag err].
  unfold restInv, nonblank, fire, render. cbn.
  intros [-> Hst].
  destruct ev as [[ | | ] | value], st, (truthy err); cbn;
    try (split; [reflexivity | assumption]).
  all: try rewrite generateQuestion_run.
  all: try rewrite handleSubmitAnswer_run.
  all: cbn.
  1, 2: outcome svc 0; settle; now split.
  1, 2: destruct (truthy (trim ua)) eqn:Hu; [|settle; now split];
        outcome svc 0; [|settle; now split..];
        outcome svc 1; settle; now repeat split.
  all: now split.
Qed.

Lemma Reachable_restInv (s : Session) : Reachable s -> restInv s.
Proof.
  induction 1 as [|svc ev s _ IH].
  - exact restInv_initial.
  - apply fire_preserves_restInv, IH.
Qed.

(** A session whose flag is up and which is not Complete offers no
    enabled control at all. *)
Lemma processing_offers_nothing (p : Session) :
  isProcessing p = true -> currentState p <> Complete ->
  forall svc ev, fire svc ev p = mkWorld p [].
Proof.
  intros Hflag Hst svc ev. unfold fire, render. rewrite Hflag.
  destruct (currentState p); [| |contradiction Hst; reflexivity];
    destruct (truthy (error p)), ev as [[ | | ] | value]; reflexivity.
Qed.

(** While a call of a handler fired from a session at rest is pending,
    no user event gets through: the handlers never interleave, which is
    why [Reachable] may take each of them in one step. *)
Lemma no_event_while_call_pending
    (svc : Service) (ev : UserEvent) (s : Session) :
  restInv s ->
  Forall (fun p => forall svc' ev', fire svc' ev' p = mkWorld p [])
         (sessionsAtCalls (trace (fire svc ev s)) s).
Proof.
  destruct s as [st q ua ai v flag err].
  intros [Hflag _]. cbn in Hflag. subst flag.
  unfold fire, render. cbn.
  destruct ev as [[ | | ] | value], st, (truthy err); cbn;
    try (constructor; fail).
  all: try rewrite generateQuestion_run.
  all: try rewrite handleSubmitAnswer_run.
  all: cbn.
  1, 2: outcome svc 0; settle;
        repeat constructor; apply processing_offers_nothing;
        reflexivity || discriminate.
  1, 2: destruct (truthy (trim ua)) eqn:Hu; [|settle; constructor];
        outcome svc 0; [outcome svc 1| |]; settle;
        repeat constructor; apply processing_offers_nothing;
        reflexivity || discriminate.
Qed.


(** The question arrives, the answer is typed. *)
Lemma typedSession_reachable : Reachable typedSession.
Proof.
  change typedSession with
    (store (fire downService (Change sampleHuman)
      (store (fire questionService (Click OnGenerateQuestion)
        initialSession)))).
  do 2 apply reach_fire. exact reach_initial.
Qed.

(** [pendingSession] is what the page shows while the first call of a
    submission from [typedSession] is pending. *)
Lemma pendingSession_shown : Shown pendingSession.
Proof.
  apply (shown_pending judgeService (Click OnSubmitAnswer) typedSession).
  - exact typedSession_reachable.
  - vm_compute. left. reflexivity.
Qed.

(* ================================================================= *)
(** ** The judge prompt *)

(** Whatever the closure holds, the judgment step sends the template
    and nothing else, in one call. *)
Lemma getJudgement_trace (svc : Service) (snap s : Session) :
  trace (snd (getJudgement svc snap (mkWorld s []))) =
  [GenerateContent JUDGE_PROMPT].
Proof.
  unfold getJudgement, bind, generateContent. cbn.
  rewrite judgePrompt_is_template.
  destruct (svc 0 JUDGE_PROMPT) as [text|]; cbn; [|reflexivity].
  destruct (truthy (trim text)); reflexivity.
Qed.

(** C1 (the judge prompt carries the question, the human answer and the
    AI answer, human first): evaluated on [answeredSession], a session
    in state Answering whose question, human answer and AI answer are
    not empty, the judgment step issues one call whose prompt is
    [JUDGE_PROMPT] itself, also when it runs inside a submission, and
    none of the three texts occurs in that prompt. *)
Theorem getJudgement_sends_bare_template :
  let s := answeredSession in
  let w := snd (getJudgement judgeService s (mkWorld s [])) in
  currentState s = Answering
  /\ question s <> [] /\ userAnswer s <> [] /\ aiAnswer s <> []
  /\ trace w = [GenerateContent JUDGE_PROMPT]
  /\ calls (trace (run (handleSubmitAnswer judgeService s) s)) =
     [GenerateContent (AI_ANSWER_PROMPT ++ question s);
      GenerateContent JUDGE_PROMPT]
  /\ includes (question s) JUDGE_PROMPT = false
  /\ includes (userAnswer s) JUDGE_PROMPT = false
  /\ includes (aiAnswer s) JUDGE_PROMPT = false.
Proof.
  cbv zeta.
  split; [reflexivity|].
  split; [discriminate|]. split; [discriminate|]. split; [discriminate|].
  split; [apply getJudgement_trace|].
  repeat split; vm_compute; reflexivity.
Qed.

(* ================================================================= *)
(** ** Submitting an answer *)

(** C2, as stated (after a failed judge call the AI answer of the first
    call is not left in the session), fails on [typedSession] with
    [judgeDownService]: the first call returns [sampleAi], the second is
    rejected, and the [aiAnswer] cell, empty before, holds [sampleAi]
    afterwards. *)
Lemma judge_failure_keeps_aiAnswer :
  let s := typedSession in
  let w := run (handleSubmitAnswer judgeDownService s) s in
  currentState s = Answering
  /\ nonblank (userAnswer s)
  /\ judgeDownService 0 (AI_ANSWER_PROMPT ++ question s) = Completion sampleAi
  /\ judgeDownService 1 (judgePrompt s) = Rejected
  /\ aiAnswer s = []
  /\ aiAnswer (store w) = sampleAi
  /\ aiAnswer (store w) <> aiAnswer s.
Proof.
  cbv zeta. repeat split; try (vm_compute; reflexivity).
  vm_compute. discriminate.
Qed.

(** C2, amended: when the AI-answer call succeeds and the judge call
    fails (by rejection or by a blank completion), the session is left
    in state Answering with the error message set and [isProcessing]
    false; the verdict, the question and the human answer are as before,
    and the [aiAnswer] cell holds the text of the first call, which
    the page rendered from that session does not show. *)
Theorem judge_failure_outcome (svc : Service) (s : Session) (a : jsstring) :
  currentState s = Answering ->
  nonblank (userAnswer s) ->
  svc 0 (AI_ANSWER_PROMPT ++ question s) = Completion a ->
  nonblank a ->
  (svc 1 (judgePrompt s) = Rejected
   \/ exists v, svc 1 (judgePrompt s) = Completion v
                /\ truthy (trim v) = false) ->
  let s' := store (run (handleSubmitAnswer svc s) s) in
  s' = mkSession Answering (question s) (userAnswer s) a (verdict s) false
         (lit "An error occurred. Please try again.")
  /\ render s' =
     [ErrorBanner (lit "An error occurred. Please try again.");
      QuestionText (question s);
      TextArea (userAnswer s) false;
      Button OnSubmitAnswer false (lit "Submit Answer")].
Proof.
  intros Hst Hu Ha Hna Hj. cbv zeta.
  rewrite handleSubmitAnswer_run. cbv zeta.
  unfold nonblank in Hu, Hna. rewrite Hu, Ha, Hna.
  destruct s as [st q ua ai v flag err]; cbn in Hst; subst st.
  destruct Hj as [Hj | (j & Hj & Hblank)]; rewrite Hj; [|rewrite Hblank];
    settle; split; reflexivity.
Qed.

Lemma judge_failure_outcome_witness :
  store (run (handleSubmitAnswer judgeDownService typedSession) typedSession)
  = mkSession Answering sampleQuestion sampleHuman sampleAi [] false
      (lit "An error occurred. Please try again.").
Proof.
  refine (proj1 (judge_failure_outcome judgeDownService typedSession sampleAi
                   _ _ _ _ _)).
  - reflexivity.
  - vm_compute. reflexivity.
  - reflexivity.
  - vm_compute. reflexivity.
  - left. reflexivity.
Defined.

(* ================================================================= *)
(** ** The processing flag *)

(** The exclusion is kept by the page: [handleSubmitAnswer] itself does
    not read [isProcessing].  Run on [pendingSession] otherwise than
    through the page, it would issue both calls. *)
Example handleSubmitAnswer_has_no_guard :
  let s := pendingSession in
  let w := run (handleSubmitAnswer judgeService s) s in
  isProcessing s = true
  /\ calls (trace w) =
     [GenerateContent (AI_ANSWER_PROMPT ++ sampleQuestion);
      GenerateContent JUDGE_PROMPT].
Proof. cbv zeta. split; vm_compute; reflexivity. Qed.

(** C3: with [isProcessing] true a trigger action has no effect.  On
    every session whose flag is up the generate-question button, the
    submit button and the answer box are rendered disabled, and the
    start-new-test button is rendered in state Complete only, so the
    event runs no handler: no effect is issued, in particular no
    network call, and no cell changes.  On every session the page shows
    with the flag up (a call of the running handler is pending) this
    holds of every user event, start-new-test included. *)
Theorem no_trigger_while_processing (s : Session) :
  isProcessing s = true ->
  (forall svc value,
      fire svc (Click OnGenerateQuestion) s = mkWorld s []
      /\ fire svc (Click OnSubmitAnswer) s = mkWorld s []
      /\ fire svc (Change value) s = mkWorld s []
      /\ (currentState s <> Complete ->
          fire svc (Click OnStartNewTest) s = mkWorld s []))
  /\ (Shown s -> forall svc ev, fire svc ev s = mkWorld s []).
Proof.
  intros Hflag. split.
  - intros svc value. unfold fire, render. rewrite Hflag.
    destruct (truthy (error s)), (currentState s); cbn; repeat split;
      intros Hst; reflexivity || (exfalso; apply Hst; reflexivity).
  - intros Hshown.
    destruct Hshown as [s Hreach | svc0 ev0 s0 p Hreach Hin].
    + destruct (Reachable_restInv s Hreach) as [Hrest _].
      rewrite Hrest in Hflag. discriminate Hflag.
    + pose proof (no_event_while_call_pending svc0 ev0 s0
                    (Reachable_restInv s0 Hreach)) as Hall.
      rewrite Forall_forall in Hall. exact (Hall p Hin).
Qed.

Lemma no_trigger_while_processing_witness :
  isProcessing pendingSession = true
  /\ fire judgeService (Click OnSubmitAnswer) pendingSession
     = mkWorld pendingSession []
  /\ fire judgeService (Click OnStartNewTest) pendingSession
     = mkWorld pendingSession [].
Proof.
  split; [reflexivity|]. split.
  - exact (proj2 (no_trigger_while_processing pendingSession eq_refl)
             pendingSession_shown judgeService (Click OnSubmitAnswer)).
  - exact (proj2 (no_trigger_while_processing pendingSession eq_refl)
             pendingSession_shown judgeService (Click OnStartNewTest)).
Defined.

(** Exhibits the effects between the first and the last write of the
    flag in a trace that is known effect by effect. *)
Ltac bracket :=
  lazymatch goal with
  | |- flagHeld _ {| store := _; trace := _ :: ?t |} =>
      split; [exists (removelast t); split; reflexivity
             | split; reflexivity]
  end.

(** C5: a run of [generateQuestion], and a run of [handleSubmitAnswer]
    that issues a network call, sets [isProcessing] first and clears it
    last, whatever the service answers; the flag is not written in
    between, it is true in the store at every call, and false in the
    end. *)
Theorem isProcessing_brackets_calls (svc : Service) (s : Session) :
  flagHeld s (run (generateQuestion svc) s)
  /\ (calls (trace (run (handleSubmitAnswer svc s) s)) <> [] ->
      flagHeld s (run (handleSubmitAnswer svc s) s)).
Proof.
  split.
  - rewrite generateQuestion_run. cbv zeta.
    outcome svc 0; settle;
      bracket.
  - rewrite handleSubmitAnswer_run. cbv zeta.
    destruct (truthy (trim (userAnswer s))) eqn:Hu;
      [|intros H; exfalso; apply H; reflexivity].
    intros _.
    outcome svc 0; [outcome svc 1| |]; settle;
      bracket.
Qed.

Lemma isProcessing_brackets_calls_witness :
  flagHeld typedSession
    (run (handleSubmitAnswer judgeDownService typedSession) typedSession).
Proof.
  apply (isProcessing_brackets_calls judgeDownService typedSession).
  vm_compute. discriminate.
Defined.

(* ================================================================= *)
(** ** Starting a new test *)

(** C4: from a session in state Complete, [startNewTest] gives the
    initial session again: the state and the five texts have their
    initial values whatever the session held, and the session as a whole
    equals the initial one, since [isProcessing] (which the handler
    does not write) is false in every session the page can be in
    between two user events. *)
Theorem startNewTest_full_reset (s : Session) :
  currentState s = Complete ->
  let s' := store (run startNewTest s) in
  (currentState s' = Initial
   /\ question s' = [] /\ userAnswer s' = [] /\ aiAnswer s' = []
   /\ verdict s' = [] /\ error s' = [])
  /\ (Reachable s -> s' = initialSession).
Proof.
  intros _. cbv zeta. rewrite startNewTest_run. cbn.
  split; [repeat split|].
  intros Hreach. destruct (Reachable_restInv s Hreach) as [-> _].
  reflexivity.
Qed.

(** On a record that is Complete with its flag up (no event sequence
    leads to one) the flag stays up through the reset. *)
Example startNewTest_on_flagged_record :
  store (run startNewTest flaggedCompleteSession)
  = mkSession Initial [] [] [] [] true [].
Proof. reflexivity. Qed.

(** C10: [startNewTest] issues no write of [isProcessing]; the flag is
    after the reset what it was before. *)
Theorem startNewTest_leaves_isProcessing (s : Session) :
  isProcessing (store (run startNewTest s)) = isProcessing s
  /\ existsb isFlagWrite (trace (run startNewTest s)) = false
  /\ store (run startNewTest s)
     = mkSession Initial [] [] [] [] (isProcessing s) [].
Proof. rewrite startNewTest_run. repeat split. Qed.

(** A full test, event by event: the question arrives, the answer is
    typed, both calls of the submission succeed. *)
Lemma completeSession_reachable : Reachable completeSession.
Proof.
  change completeSession with
    (store (fire judgeService (Click OnSubmitAnswer)
      (store (fire downService (Change sampleHuman)
        (store (fire questionService (Click OnGenerateQuestion)
          initialSession)))))).
  do 3 apply reach_fire. exact reach_initial.
Qed.

Lemma startNewTest_full_reset_witness :
  store (run startNewTest completeSession) = initialSession.
Proof.
  exact (proj2 (startNewTest_full_reset completeSession eq_refl)
           completeSession_reachable).
Defined.

(* ================================================================= *)
(** ** Blank completions and blank answers *)

Lemma generateQuestion_storesNoBlank (svc : Service) (s : Session) :
  storesNoBlank (run (generateQuestion svc) s).
Proof.
  rewrite generateQuestion_run. cbv zeta. intros e v.
  outcome svc 0; settle; intros Hin Hv;
    repeat (destruct Hin as [<- | Hin]; [try discriminate Hv|]);
    try contradiction.
  injection Hv as <-. exact Htext.
Qed.

Lemma handleSubmitAnswer_storesNoBlank (svc : Service) (snap s : Session) :
  storesNoBlank (run (handleSubmitAnswer svc snap) s).
Proof.
  rewrite handleSubmitAnswer_run. cbv zeta. intros e v.
  destruct (truthy (trim (userAnswer snap))) eqn:Hu;
    [outcome svc 0; [outcome svc 1| |]|]; settle; intros Hin Hv;
    repeat (destruct Hin as [<- | Hin]; [try discriminate Hv|]);
    try contradiction;
    injection Hv as <-; assumption.
Qed.

(** C6: a blank or whitespace-only completion makes each of the three
    generation calls fail with its emptiness error ([generateQuestion]
    catches and logs its own), no run ever writes a blank text as
    question, AI answer or verdict, and when the question call returns
    a blank text from state Initial the session stays Initial with a
    non-empty error message and [isProcessing] false. *)
Theorem blank_completion_rejected
    (svc : Service) (s : Session) (blank : jsstring) :
  truthy (trim blank) = false ->
  (svc 0 QUESTION_PROMPT = Completion blank ->
   In (ConsoleError (lit "Error generating question:")
         (JsError (lit "Generated question was empty")))
      (trace (run (generateQuestion svc) s))
   /\ (currentState s = Initial ->
       currentState (store (run (generateQuestion svc) s)) = Initial)
   /\ question (store (run (generateQuestion svc) s)) = question s
   /\ truthy (error (store (run (generateQuestion svc) s))) = true
   /\ isProcessing (store (run (generateQuestion svc) s)) = false)
  /\ (svc 0 (AI_ANSWER_PROMPT ++ question s) = Completion blank ->
      fst (getAIAnswer svc s (mkWorld s []))
      = Thrown (JsError (lit "AI generated an empty response")))
  /\ (svc 0 (judgePrompt s) = Completion blank ->
      fst (getJudgement svc s (mkWorld s []))
      = Thrown (JsError (lit "Judge generated an empty response")))
  /\ storesNoBlank (run (generateQuestion svc) s)
  /\ storesNoBlank (run (handleSubmitAnswer svc s) s).
Proof.
  intros Hblank. split; [|split; [|split; [|split]]].
  - intros Hsvc. rewrite generateQuestion_run. cbv zeta.
    rewrite Hsvc, Hblank. settle.
    split; [right; right; right; left; reflexivity|].
    split; [intros H; exact H|]. repeat split.
  - intros Hsvc. rewrite getAIAnswer_result, Hsvc, Hblank. reflexivity.
  - intros Hsvc. rewrite getJudgement_result, Hsvc, Hblank. reflexivity.
  - apply generateQuestion_storesNoBlank.
  - apply handleSubmitAnswer_storesNoBlank.
Qed.

Lemma blank_completion_rejected_witness :
  currentState (store (run (generateQuestion emptyService) initialSession))
  = Initial
  /\ truthy (error (store (run (generateQuestion emptyService)
                             initialSession))) = true
  /\ isProcessing (store (run (generateQuestion emptyService)
                            initialSession)) = false.
Proof.
  destruct (blank_completion_rejected emptyService initialSession [])
    as [Hq _]; [reflexivity|].
  destruct (Hq eq_refl) as (_ & Hst & _ & Herr & Hflag).
  split; [apply Hst; reflexivity|]. split; [exact Herr | exact Hflag].
Defined.

(** C7: submitting an answer that is empty or whitespace only, in state
    Answering, issues no network call, sets the error message and
    leaves the state Answering; nothing but the error cell is written. *)
Theorem blank_answer_rejected (svc : Service) (s : Session) :
  currentState s = Answering ->
  truthy (trim (userAnswer s)) = false ->
  let w := run (handleSubmitAnswer svc s) s in
  calls (trace w) = []
  /\ truthy (error (store w)) = true
  /\ currentState (store w) = Answering
  /\ trace w = [SetError (lit "Please enter your answer before submitting.")].
Proof.
  intros Hst Hu. cbv zeta. rewrite handleSubmitAnswer_run. cbv zeta.
  rewrite Hu. settle. repeat split. exact Hst.
Qed.

Lemma blank_answer_rejected_witness :
  calls (trace (run (handleSubmitAnswer judgeService blankAnswerSession)
                  blankAnswerSession)) = [].
Proof.
  apply (blank_answer_rejected judgeService blankAnswerSession).
  - reflexivity.
  - vm_compute. reflexivity.
Defined.

(** C9: when the question call is rejected or returns a blank text, the
    run of [generateQuestion] leaves the question, the human answer, the
    AI answer and the verdict (and the state) as they were; its writes
    go to the error message and to [isProcessing] only. *)
Theorem generateQuestion_failure_frame (svc : Service) (s : Session) :
  (svc 0 QUESTION_PROMPT = Rejected
   \/ exists t, svc 0 QUESTION_PROMPT = Completion t
                /\ truthy (trim t) = false) ->
  let w := run (generateQuestion svc) s in
  question (store w) = question s
  /\ userAnswer (store w) = userAnswer s
  /\ aiAnswer (store w) = aiAnswer s
  /\ verdict (store w) = verdict s
  /\ currentState (store w) = currentState s
  /\ forallb writesOnlyErrorAndFlag (trace w) = true.
Proof.
  intros Hfail. cbv zeta. rewrite generateQuestion_run. cbv zeta.
  destruct Hfail as [Hsvc | (t & Hsvc & Hblank)]; rewrite Hsvc;
    [|rewrite Hblank]; settle; repeat split.
Qed.

Lemma generateQuestion_failure_frame_witness :
  question (store (run (generateQuestion downService) answeredSession))
  = sampleQuestion.
Proof.
  apply (generateQuestion_failure_frame downService answeredSession).
  left. reflexivity.
Defined.

(* ================================================================= *)
(** ** The results document *)

(** The template of [formatOutput], cut into headings, contents and the
    line breaks between them. *)
Lemma formatOutput_sections (q u a v : jsstring) :
  formatOutput q u a v =
  lit "# AI Turing Test Results" ++ (LF ++ LF ++ LF)
  ++ (lit "## The Question" ++ LF ++ q) ++ (LF ++ LF ++ LF)
  ++ (lit "## Human Response" ++ LF ++ u) ++ (LF ++ LF ++ LF)
  ++ (lit "## AI Response" ++ LF ++ a) ++ (LF ++ LF ++ LF)
  ++ lit "---" ++ LF ++ v.
Proof.
  unfold formatOutput.
  change (lit "
## The Question
") with (LF ++ lit "## The Question" ++ LF).
  change (lit "
## Human Response
") with (LF ++ lit "## Human Response" ++ LF).
  change (lit "
## AI Response
") with (LF ++ lit "## AI Response" ++ LF).
  change (lit "
---
") with (LF ++ lit "---" ++ LF).
  repeat rewrite <- app_assoc. reflexivity.
Qed.

(** C8: in a session that reached state Complete the page shows the
    document of [formatOutput], which holds, in this order, the title
    heading, the question under its heading, the human response under
    its heading, the AI response under its heading, the separator and,
    closing the document, the verdict; none of the four texts is empty
    (nor blank). *)
Theorem complete_document_sections (s : Session) :
  Reachable s ->
  currentState s = Complete ->
  let doc :=
    formatOutput (question s) (userAnswer s) (aiAnswer s) (verdict s) in
  In (Markdown doc) (render s)
  /\ inOrder
       [lit "# AI Turing Test Results";
        lit "## The Question" ++ LF ++ question s;
        lit "## Human Response" ++ LF ++ userAnswer s;
        lit "## AI Response" ++ LF ++ aiAnswer s;
        lit "---";
        verdict s]
       doc
  /\ (exists before, doc = before ++ verdict s)
  /\ (nonblank (question s) /\ nonblank (userAnswer s)
      /\ nonblank (aiAnswer s) /\ nonblank (verdict s))
  /\ question s <> [] /\ userAnswer s <> [] /\ aiAnswer s <> []
  /\ verdict s <> [].
Proof.
  intros Hreach Hst. cbv zeta.
  destruct (Reachable_restInv s Hreach) as [_ Hinv]. rewrite Hst in Hinv.
  destruct Hinv as (Hq & Hu & Ha & Hv).
  split; [|split; [|split; [|split; [now repeat split|]]]].
  - unfold render. rewrite Hst. apply in_or_app. right. left. reflexivity.
  - rewrite formatOutput_sections. cbn [inOrder].
    exists [], ((LF ++ LF ++ LF)
      ++ (lit "## The Question" ++ LF ++ question s) ++ (LF ++ LF ++ LF)
      ++ (lit "## Human Response" ++ LF ++ userAnswer s) ++ (LF ++ LF ++ LF)
      ++ (lit "## AI Response" ++ LF ++ aiAnswer s) ++ (LF ++ LF ++ LF)
      ++ lit "---" ++ LF ++ verdict s).
    split; [reflexivity|].
    exists (LF ++ LF ++ LF), ((LF ++ LF ++ LF)
      ++ (lit "## Human Response" ++ LF ++ userAnswer s) ++ (LF ++ LF ++ LF)
      ++ (lit "## AI Response" ++ LF ++ aiAnswer s) ++ (LF ++ LF ++ LF)
      ++ lit "---" ++ LF ++ verdict s).
    split; [reflexivity|].
    exists (LF ++ LF ++ LF), ((LF ++ LF ++ LF)
      ++ (lit "## AI Response" ++ LF ++ aiAnswer s) ++ (LF ++ LF ++ LF)
      ++ lit "---" ++ LF ++ verdict s).
    split; [reflexivity|].
    exists (LF ++ LF ++ LF), ((LF ++ LF ++ LF)
      ++ lit "---" ++ LF ++ verdict s).
    split; [reflexivity|].
    exists (LF ++ LF ++ LF), (LF ++ verdict s).
    split; [reflexivity|].
    exists LF, []. split; [|exact I].
    rewrite app_nil_r. reflexivity.
  - unfold formatOutput. eexists. repeat rewrite app_assoc. reflexivity.
  - repeat split; apply nonblank_nonempty; assumption.
Qed.

Lemma complete_document_sections_witness :
  In (Markdown (formatOutput sampleQuestion sampleHuman sampleAi
                  sampleVerdict))
     (render completeSession).
Proof.
  apply (complete_document_sections completeSession
           completeSession_reachable eq_refl).
Defined.

(* ================================================================= *)
(** ** Further properties of the handlers *)

(** X1: no exception leaves [generateQuestion] or [handleSubmitAnswer]:
    whatever the service does, whatever the closure and the store hold
    and whatever was issued before, both return normally. *)
Theorem handlers_never_throw (svc : Service) (snap : Session) (w : World) :
  fst (generateQuestion svc w) = Returned tt
  /\ fst (handleSubmitAnswer svc snap w) = Returned tt.
Proof.
  split.
  - unfold generateQuestion, try_catch_finally, bind, emit, generateContent.
    cbn. destruct (svc _ _) as [text|]; cbn; [|reflexivity].
    destruct (truthy (trim text)); reflexivity.
  - unfold handleSubmitAnswer.
    destruct (truthy (trim (userAnswer snap))); cbn; [|reflexivity].
    unfold try_catch_finally, bind, emit, getAIAnswer, getJudgement,
      generateContent, bind.
    cbn. destruct (svc _ _) as [a|]; cbn; [|reflexivity].
    destruct (truthy (trim a)); cbn; [|reflexivity].
    destruct (svc _ _) as [j|]; cbn; [|reflexivity].
    destruct (truthy (trim j)); reflexivity.
Qed.

(** X2: when the service answers the question prompt with a text that
    is not blank, [generateQuestion] issues that one call and leaves
    the session in state Answering with the text stored as it came
    (not trimmed), the error cell empty and [isProcessing] false; the
    human answer, the AI answer and the verdict are as before. *)
Theorem generateQuestion_success
    (svc : Service) (s : Session) (text : jsstring) :
  svc 0 QUESTION_PROMPT = Completion text ->
  nonblank text ->
  let w := run (generateQuestion svc) s in
  store w = mkSession Answering text (userAnswer s) (aiAnswer s) (verdict s)
              false []
  /\ calls (trace w) = [GenerateContent QUESTION_PROMPT].
Proof.
  intros Hsvc Htext. cbv zeta. rewrite generateQuestion_run. cbv zeta.
  unfold nonblank in Htext. rewrite Hsvc, Htext. settle.
  split; reflexivity.
Qed.

Lemma generateQuestion_success_witness :
  store (run (generateQuestion questionService) initialSession)
  = mkSession Answering sampleQuestion [] [] [] false [].
Proof.
  refine (proj1 (generateQuestion_success questionService initialSession
                   sampleQuestion _ _)).
  - reflexivity.
  - vm_compute. reflexivity.
Defined.

(** X3: when both calls of a submission return texts that are not
    blank, the session ends in state Complete holding the two texts as
    they came, with the error cell empty and [isProcessing] false; the
    question and the human answer are untouched, and the page then
    shows the results document built from the four cells and the
    start-new-test button, without an error banner. *)
Theorem handleSubmitAnswer_success
    (svc : Service) (s : Session) (a v : jsstring) :
  nonblank (userAnswer s) ->
  svc 0 (AI_ANSWER_PROMPT ++ question s) = Completion a ->
  nonblank a ->
  svc 1 JUDGE_PROMPT = Completion v ->
  nonblank v ->
  let s' := store (run (handleSubmitAnswer svc s) s) in
  s' = mkSession Complete (question s) (userAnswer s) a v false []
  /\ render s' =
     [Markdown (formatOutput (question s) (userAnswer s) a v);
      Button OnStartNewTest false (lit "Start New Test")].
Proof.
  intros Hu Ha Hna Hv Hnv. cbv zeta.
  rewrite handleSubmitAnswer_run. cbv zeta.
  rewrite judgePrompt_is_template.
  unfold nonblank in Hu, Hna, Hnv. rewrite Hu, Ha, Hna, Hv, Hnv.
  settle. split; reflexivity.
Qed.

Lemma handleSubmitAnswer_success_witness :
  store (run (handleSubmitAnswer judgeService typedSession) typedSession)
  = completeSession.
Proof.
  refine (proj1 (handleSubmitAnswer_success judgeService typedSession
                   sampleAi sampleVerdict _ _ _ _ _));
    vm_compute; reflexivity.
Defined.

(** X4: when the AI-answer call fails, by rejection or by a blank
    completion, the judge call is not issued, and nothing but the error
    message and [isProcessing] changes: state, question, human answer,
    AI answer and verdict are as before. *)
Theorem first_call_failure_stops_chain (svc : Service) (s : Session) :
  nonblank (userAnswer s) ->
  (svc 0 (AI_ANSWER_PROMPT ++ question s) = Rejected
   \/ exists t, svc 0 (AI_ANSWER_PROMPT ++ question s) = Completion t
                /\ truthy (trim t) = false) ->
  let w := run (handleSubmitAnswer svc s) s in
  calls (trace w) = [GenerateContent (AI_ANSWER_PROMPT ++ question s)]
  /\ store w = mkSession (currentState s) (question s) (userAnswer s)
                 (aiAnswer s) (verdict s) false
                 (lit "An error occurred. Please try again.").
Proof.
  intros Hu Hfail. cbv zeta. rewrite handleSubmitAnswer_run. cbv zeta.
  unfold nonblank in Hu. rewrite Hu.
  destruct Hfail as [Hsvc | (t & Hsvc & Hblank)]; rewrite Hsvc;
    [|rewrite Hblank]; settle; split; reflexivity.
Qed.

Lemma first_call_failure_stops_chain_witness :
  calls (trace (run (handleSubmitAnswer downService typedSession)
                  typedSession))
  = [GenerateContent (AI_ANSWER_PROMPT ++ sampleQuestion)].
Proof.
  refine (proj1 (first_call_failure_stops_chain downService typedSession
                   _ _)).
  - vm_compute. reflexivity.
  - left. reflexivity.
Defined.

(** X5: the answers reach no prompt.  Two submissions from sessions
    with the same question, whatever non-blank human answers and
    whatever AI answers their cells hold, issue the same effects in the
    same order: the same calls and the same texts written. *)
Theorem answers_reach_no_prompt (svc : Service) (s1 s2 : Session) :
  question s1 = question s2 ->
  nonblank (userAnswer s1) ->
  nonblank (userAnswer s2) ->
  trace (run (handleSubmitAnswer svc s1) s1)
  = trace (run (handleSubmitAnswer svc s2) s2).
Proof.
  intros Hq Hu1 Hu2. rewrite !handleSubmitAnswer_run. cbv zeta.
  rewrite !judgePrompt_is_template.
  unfold nonblank in Hu1, Hu2. rewrite Hu1, Hu2, Hq. reflexivity.
Qed.

Lemma answers_reach_no_prompt_witness :
  trace (run (handleSubmitAnswer judgeService typedSession) typedSession)
  = trace (run (handleSubmitAnswer judgeService answeredSession)
             answeredSession).
Proof.
  apply (answers_reach_no_prompt judgeService typedSession answeredSession).
  - reflexivity.
  - vm_compute. reflexivity.
  - vm_compute. reflexivity.
Defined.

(* ================================================================= *)
(** ** The prompt of the AI-answer call *)

Lemma startsWith_app (p rest : jsstring) : startsWith p (p ++ rest) = true.
Proof.
  induction p as [|x p IH]; [reflexivity|].
  cbn. rewrite N.eqb_refl. exact IH.
Qed.

Lemma indexOf_at_start (p s : jsstring) :
  startsWith p s = true -> indexOf p s = Some 0.
Proof. intros H. destruct s; cbn [indexOf]; rewrite H; reflexivity. Qed.

Lemma includes_app (before p rest : jsstring) :
  includes p (before ++ p ++ rest) = true.
Proof.
  unfold includes.
  induction before as [|x before IH].
  - cbn [app]. rewrite (indexOf_at_start p (p ++ rest)); [reflexivity|].
    apply startsWith_app.
  - cbn [app indexOf].
    destruct (startsWith p (x :: before ++ p ++ rest)); [reflexivity|].
    destruct (indexOf p (before ++ p ++ rest)); [reflexivity|discriminate IH].
Qed.

(** X6: [getAIAnswer] issues one call; its prompt is [AI_ANSWER_PROMPT]
    followed by the question of the closure, so it starts with the
    template and contains the question; the store is not written. *)
Theorem getAIAnswer_prompt (svc : Service) (snap s : Session) :
  let w := snd (getAIAnswer svc snap (mkWorld s [])) in
  exists prompt,
    trace w = [GenerateContent prompt]
    /\ startsWith AI_ANSWER_PROMPT prompt = true
    /\ includes (question snap) prompt = true
    /\ skipn (length AI_ANSWER_PROMPT) prompt = question snap
    /\ store w = s.
Proof.
  cbv zeta. exists (AI_ANSWER_PROMPT ++ question snap).
  split; [|split; [apply startsWith_app|split; [|split]]].
  - unfold getAIAnswer, bind, generateContent. cbn.
    destruct (svc 0 _) as [text|]; cbn; [|reflexivity].
    destruct (truthy (trim text)); reflexivity.
  - rewrite <- (app_nil_r (question snap)) at 2. apply includes_app.
  - rewrite skipn_app, skipn_all, Nat.sub_diag. reflexivity.
  - unfold getAIAnswer, bind, generateContent. cbn.
    destruct (svc 0 _) as [text|]; cbn; [|reflexivity].
    destruct (truthy (trim text)); reflexivity.
Qed.

(* ================================================================= *)
(** ** Failures and retries *)

(** X7: the session does not tell a rejected call from a blank
    completion: after [generateQuestion], and after a submission whose
    failure is at the same call, the store is the same for both kinds
    of failure. *)
Theorem failure_kinds_look_alike
    (rejecting blanking : Service) (s : Session) (t : jsstring) :
  truthy (trim t) = false ->
  (rejecting 0 QUESTION_PROMPT = Rejected ->
   blanking 0 QUESTION_PROMPT = Completion t ->
   store (run (generateQuestion rejecting) s)
   = store (run (generateQuestion blanking) s))
  /\ (rejecting 0 (AI_ANSWER_PROMPT ++ question s) = Rejected ->
      blanking 0 (AI_ANSWER_PROMPT ++ question s) = Completion t ->
      store (run (handleSubmitAnswer rejecting s) s)
      = store (run (handleSubmitAnswer blanking s) s))
  /\ (forall a,
      rejecting 0 (AI_ANSWER_PROMPT ++ question s) = Completion a ->
      blanking 0 (AI_ANSWER_PROMPT ++ question s) = Completion a ->
      rejecting 1 JUDGE_PROMPT = Rejected ->
      blanking 1 JUDGE_PROMPT = Completion t ->
      store (run (handleSubmitAnswer rejecting s) s)
      = store (run (handleSubmitAnswer blanking s) s)).
Proof.
  intros Hblank. split; [|split].
  - intros Hr Hb. rewrite !generateQuestion_run. cbv zeta.
    rewrite Hr, Hb, Hblank. reflexivity.
  - intros Hr Hb. rewrite !handleSubmitAnswer_run. cbv zeta.
    rewrite Hr, Hb, Hblank.
    destruct (truthy (trim (userAnswer s))); reflexivity.
  - intros a Hr Hb Hr1 Hb1. rewrite !handleSubmitAnswer_run. cbv zeta.
    rewrite judgePrompt_is_template, Hr, Hb, Hr1, Hb1, Hblank.
    destruct (truthy (trim (userAnswer s))), (truthy (trim a)); reflexivity.
Qed.

Lemma failure_kinds_look_alike_witness :
  store (run (generateQuestion downService) initialSession)
  = store (run (generateQuestion emptyService) initialSession).
Proof.
  refine (proj1 (failure_kinds_look_alike downService emptyService
                   initialSession [] _) _ _); reflexivity.
Defined.

(** At rest, the control of the current state is enabled, and the event
    runs its handler. *)
Lemma fire_generate_at_rest (svc : Service) (s : Session) :
  currentState s = Initial -> isProcessing s = false ->
  fire svc (Click OnGenerateQuestion) s = run (generateQuestion svc) s.
Proof.
  intros Hst Hflag. unfold fire, render. rewrite Hst, Hflag.
  destruct (truthy (error s)); reflexivity.
Qed.

Lemma fire_submit_at_rest (svc : Service) (s : Session) :
  currentState s = Answering -> isProcessing s = false ->
  fire svc (Click OnSubmitAnswer) s = run (handleSubmitAnswer svc s) s.
Proof.
  intros Hst Hflag. unfold fire, render. rewrite Hst, Hflag.
  destruct (truthy (error s)); reflexivity.
Qed.

Lemma fire_change_at_rest (svc : Service) (s : Session) (value : jsstring) :
  currentState s = Answering -> isProcessing s = false ->
  fire svc (Change value) s = run (emit (SetUserAnswer value)) s.
Proof.
  intros Hst Hflag. unfold fire, render. rewrite Hst, Hflag.
  destruct (truthy (error s)); reflexivity.
Qed.

Lemma fire_startNewTest_complete (svc : Service) (s : Session) :
  currentState s = Complete ->
  fire svc (Click OnStartNewTest) s = run startNewTest s.
Proof.
  intros Hst. unfold fire, render. rewrite Hst.
  destruct (truthy (error s)); reflexivity.
Qed.

(** X8: a failed question request leaves nothing behind once a retry
    succeeds: clicking again with a service that now answers gives the
    session that the same click would have given at first. *)
Theorem generateQuestion_retry
    (failing working : Service) (s : Session) (text : jsstring) :
  isProcessing s = false ->
  currentState s = Initial ->
  currentState (store (fire failing (Click OnGenerateQuestion) s))
  = Initial ->
  working 0 QUESTION_PROMPT = Completion text ->
  nonblank text ->
  store (fire working (Click OnGenerateQuestion)
           (store (fire failing (Click OnGenerateQuestion) s)))
  = store (fire working (Click OnGenerateQuestion) s).
Proof.
  destruct s as [st q ua ai v flag err]. cbn.
  intros -> -> Hfail Hw Htext. revert Hfail.
  unfold nonblank in Htext.
  rewrite !(fire_generate_at_rest _ (mkSession Initial q ua ai v false err))
    by reflexivity.
  rewrite !generateQuestion_run. cbv zeta.
  outcome failing 0; settle; try discriminate; intros _.
  all: rewrite fire_generate_at_rest by reflexivity.
  all: rewrite generateQuestion_run; cbv zeta; rewrite Hw, Htext;
       reflexivity.
Qed.

Lemma generateQuestion_retry_witness :
  store (fire questionService (Click OnGenerateQuestion)
           (store (fire downService (Click OnGenerateQuestion)
                     initialSession)))
  = store (fire questionService (Click OnGenerateQuestion) initialSession).
Proof.
  apply (generateQuestion_retry downService questionService initialSession
           sampleQuestion); vm_compute; reflexivity.
Defined.

(** X9: a submission that completes overwrites whatever a failed
    submission left (its error message, the AI answer of a failed judge
    step): submitting again after the failure gives the session that
    the completing submission would have given at first. *)
Theorem handleSubmitAnswer_retry (failing working : Service) (s : Session) :
  isProcessing s = false ->
  currentState s = Answering ->
  currentState (store (fire failing (Click OnSubmitAnswer) s)) = Answering ->
  currentState (store (fire working (Click OnSubmitAnswer) s)) = Complete ->
  store (fire working (Click OnSubmitAnswer)
           (store (fire failing (Click OnSubmitAnswer) s)))
  = store (fire working (Click OnSubmitAnswer) s).
Proof.
  destruct s as [st q ua ai v flag err]. cbn.
  intros -> -> Hfail Hwork. revert Hfail Hwork.
  rewrite !(fire_submit_at_rest _ (mkSession Answering q ua ai v false err))
    by reflexivity.
  rewrite !handleSubmitAnswer_run. cbv zeta.
  rewrite !judgePrompt_is_template. cbn.
  destruct (truthy (trim ua)) eqn:Hu; [|settle; discriminate].
  outcome failing 0; [outcome failing 1| |]; settle;
    try discriminate; intros _.
  all: outcome working 0; [outcome working 1| |]; settle;
       try discriminate; intros _.
  all: rewrite fire_submit_at_rest by reflexivity.
  all: rewrite handleSubmitAnswer_run; cbv zeta;
       rewrite judgePrompt_is_template; cbn;
       repeat match goal with
              | H : _ = Completion _ |- _ => rewrite H
              | H : truthy _ = _ |- _ => rewrite H
              end;
       reflexivity.
Qed.

Lemma handleSubmitAnswer_retry_witness :
  store (fire judgeService (Click OnSubmitAnswer)
           (store (fire judgeDownService (Click OnSubmitAnswer)
                     typedSession)))
  = completeSession.
Proof.
  rewrite (handleSubmitAnswer_retry judgeDownService judgeService
             typedSession); vm_compute; reflexivity.
Defined.

(* ================================================================= *)
(** ** The page as a state machine *)

(** Runs the handler of the event at hand and splits on everything its
    run depends on. *)
Ltac unfold_fire :=
  unfold fire, render; cbn;
  repeat match goal with
         | |- context [truthy ?e] =>
             lazymatch e with
             | trim _ => fail
             | _ => destruct (truthy e) eqn:?
             end
         end; cbn;
  rewrite ?generateQuestion_run, ?handleSubmitAnswer_run; cbv zeta;
  rewrite ?judgePrompt_is_template; cbn.

(** X10: the state cell moves only along the cycle Initial, Answering,
    Complete, Initial, one step at a time, and each step is taken by
    its own click: generate-question, submit, start-new-test.  Every
    other event, and every failed run, leaves the state where it was. *)
Theorem state_moves_along_cycle
    (svc : Service) (ev : UserEvent) (s : Session) :
  let s' := store (fire svc ev s) in
  currentState s' = currentState s
  \/ move (currentState s) ev (currentState s').
Proof.
  cbv zeta. unfold move.
  destruct s as [st q ua ai v flag err].
  destruct ev as [[ | | ] | value], st, flag; unfold_fire;
    try (left; reflexivity).
  - outcome svc 0; settle; [right; left; repeat split|left..]; reflexivity.
  - outcome svc 0; settle; [right; left; repeat split|left..]; reflexivity.
  - destruct (truthy (trim ua)); [|left; reflexivity].
    outcome svc 0; [outcome svc 1| |]; settle;
      [right; right; left; repeat split|left..]; reflexivity.
  - destruct (truthy (trim ua)); [|left; reflexivity].
    outcome svc 0; [outcome svc 1| |]; settle;
      [right; right; left; repeat split|left..]; reflexivity.
  - right; right; right; repeat split.
  - right; right; right; repeat split.
  - right; right; right; repeat split.
  - right; right; right; repeat split.
Qed.

(** X11: in every session the page can be in between two user events
    the cells are filled in order: in state Initial the question, the
    human answer, the AI answer and the verdict are all empty; in state
    Answering the verdict is empty; in state Complete the error cell is
    empty, so no error banner is shown beside the results. *)
Theorem cells_filled_in_order (s : Session) :
  Reachable s -> populatedInOrder s.
Proof.
  induction 1 as [|svc ev s Hreach IH].
  - repeat split.
  - pose proof (Reachable_restInv s Hreach) as [Hflag _].
    destruct s as [st q ua ai v flag err]. cbn in Hflag. subst flag.
    unfold populatedInOrder in IH |- *.
    destruct ev as [[ | | ] | value], st; cbn in IH; unfold_fire;
      try assumption.
    1, 2: destruct IH as (-> & -> & -> & ->);
          outcome svc 0; settle; repeat split; reflexivity.
    1, 2: destruct (truthy (trim ua)); [|settle; assumption];
          outcome svc 0; [outcome svc 1| |]; settle;
          try reflexivity; assumption.
    all: repeat split.
Qed.

Lemma cells_filled_in_order_witness : error completeSession = [].
Proof.
  exact (cells_filled_in_order completeSession completeSession_reachable).
Defined.

(** X12: in state Answering with no call pending, typing replaces the
    human answer by the text typed and touches nothing else; the answer
    box rendered next shows that text, and no call is issued.  In the
    other two states there is no answer box: the event changes
    nothing. *)
Theorem typing_updates_answer
    (svc : Service) (s : Session) (value : jsstring) :
  (currentState s = Answering -> isProcessing s = false ->
   let w := fire svc (Change value) s in
   store w = mkSession Answering (question s) value (aiAnswer s) (verdict s)
               false (error s)
   /\ trace w = [SetUserAnswer value]
   /\ In (TextArea value false) (render (store w)))
  /\ (currentState s <> Answering ->
      fire svc (Change value) s = mkWorld s []).
Proof.
  destruct s as [st q ua ai v flag err]. cbn. split.
  - intros -> ->. unfold fire, render. cbn.
    destruct (truthy err) eqn:Herr; cbn; repeat split.
    + unfold render. cbn. rewrite Herr. right. right. left. reflexivity.
    + unfold render. cbn. rewrite Herr. right. left. reflexivity.
  - intros Hst. unfold fire, render. cbn.
    destruct st; [|contradiction Hst; reflexivity|];
      destruct (truthy err), flag; reflexivity.
Qed.

Lemma typing_updates_answer_witness :
  store (fire downService (Change sampleHuman)
           (mkSession Answering sampleQuestion [] [] [] false []))
  = typedSession.
Proof.
  refine (proj1 (proj1 (typing_updates_answer downService
                          (mkSession Answering sampleQuestion [] [] [] false [])
                          sampleHuman) _ _)); reflexivity.
Defined.



(** X14: a whole test.  From the initial session, a question request
    answered by a non-blank question, typing a non-blank answer, and a
    submission whose two calls return non-blank texts lead to state
    Complete with exactly these four texts in the cells; the page shows
    their results document, and the start-new-test click then gives the
    initial session again. *)
Theorem whole_test
    (asking judging other : Service) (q h a v : jsstring) :
  asking 0 QUESTION_PROMPT = Completion q -> nonblank q ->
  nonblank h ->
  judging 0 (AI_ANSWER_PROMPT ++ q) = Completion a -> nonblank a ->
  judging 1 JUDGE_PROMPT = Completion v -> nonblank v ->
  let s1 := store (fire asking (Click OnGenerateQuestion) initialSession) in
  let s2 := store (fire other (Change h) s1) in
  let s3 := store (fire judging (Click OnSubmitAnswer) s2) in
  s3 = mkSession Complete q h a v false []
  /\ In (Markdown (formatOutput q h a v)) (render s3)
  /\ store (fire other (Click OnStartNewTest) s3) = initialSession.
Proof.
  intros Hq Hnq Hnh Ha Hna Hv Hnv. cbv zeta.
  unfold nonblank in *.
  assert (H1 : store (fire asking (Click OnGenerateQuestion) initialSession)
               = mkSession Answering q [] [] [] false []).
  { rewrite fire_generate_at_rest by reflexivity.
    rewrite generateQuestion_run. cbv zeta. rewrite Hq, Hnq. reflexivity. }
  rewrite H1.
  assert (H2 : store (fire other (Change h)
                        (mkSession Answering q [] [] [] false []))
               = mkSession Answering q h [] [] false []).
  { rewrite fire_change_at_rest by reflexivity. reflexivity. }
  rewrite H2.
  assert (H3 : store (fire judging (Click OnSubmitAnswer)
                        (mkSession Answering q h [] [] false []))
               = mkSession Complete q h a v false []).
  { rewrite fire_submit_at_rest by reflexivity.
    rewrite handleSubmitAnswer_run. cbv zeta.
    rewrite judgePrompt_is_template. cbn [question userAnswer].
    rewrite Hnh, Ha, Hna, Hv, Hnv. reflexivity. }
  rewrite H3.
  split; [reflexivity|]. split; [left; reflexivity|].
  rewrite fire_startNewTest_complete by reflexivity. reflexivity.
Qed.

Lemma whole_test_witness :
  store (fire judgeService (Click OnSubmitAnswer)
           (store (fire downService (Change sampleHuman)
                     (store (fire questionService (Click OnGenerateQuestion)
                               initialSession)))))
  = completeSession.
Proof.
  refine (proj1 (whole_test questionService judgeService downService
                   sampleQuestion sampleHuman sampleAi sampleVerdict
                   _ _ _ _ _ _ _)); vm_compute; reflexivity.
Defined.

(** X15: one user event issues at most two network calls, in the order
    AI answer then judge for a submission, and each prompt is one of
    the question prompt, the AI-answer prompt followed by the question
    shown, and the judge template: there is no retry and no other
    traffic. *)
Theorem calls_of_an_event (svc : Service) (ev : UserEvent) (s : Session) :
  let cs := calls (trace (fire svc ev s)) in
  cs = []
  \/ cs = [GenerateContent QUESTION_PROMPT]
  \/ cs = [GenerateContent (AI_ANSWER_PROMPT ++ question s)]
  \/ cs = [GenerateContent (AI_ANSWER_PROMPT ++ question s);
           GenerateContent JUDGE_PROMPT].
Proof.
  cbv zeta. destruct s as [st q ua ai v flag err].
  destruct ev as [[ | | ] | value], st, flag; unfold_fire;
    try (left; reflexivity).
  1, 2: outcome svc 0; settle; right; left; reflexivity.
  1, 2: destruct (truthy (trim ua)); [|left; reflexivity];
        outcome svc 0; [outcome svc 1| |]; settle;
        right; right; (left; reflexivity) || (right; reflexivity).
Qed.

(** After any user event the error cell is empty, one of the three
    fixed messages of the handlers, or what it was before the event. *)
Lemma error_after_event (svc : Service) (ev : UserEvent) (s : Session) :
  let e := error (store (fire svc ev s)) in
  e = [] \/ In e handlerMessages \/ e = error s.
Proof.
  cbv zeta. unfold handlerMessages.
  destruct s as [st q ua ai v flag err].
  destruct ev as [[ | | ] | value], st, flag; unfold_fire;
    try (right; right; reflexivity); try (left; reflexivity).
  1, 2: outcome svc 0; settle;
        [left|right; left; left..]; reflexivity.
  1, 2: destruct (truthy (trim ua));
        [|right; left; right; left; reflexivity];
        outcome svc 0; [outcome svc 1| |]; settle;
        (left; reflexivity) || (right; left; right; right; left; reflexivity).
Qed.

(** X16: the error cell never carries details of a failure: in every
    session the page can be in between two user events it is empty or
    holds one of the three fixed messages of the handlers; the
    exception caught goes to the console only. *)
Theorem error_is_a_fixed_message (s : Session) :
  Reachable s -> error s = [] \/ In (error s) handlerMessages.
Proof.
  induction 1 as [|svc ev s _ IH].
  - left. reflexivity.
  - destruct (error_after_event svc ev s) as [He | [He | He]].
    + left. exact He.
    + right. exact He.
    + rewrite He. exact IH.
Qed.

Lemma error_is_a_fixed_message_witness :
  error (store (fire downService (Click OnGenerateQuestion) initialSession))
  = []
  \/ In (error (store (fire downService (Click OnGenerateQuestion)
                         initialSession)))
        handlerMessages.
Proof.
  apply (error_is_a_fixed_message
           (store (fire downService (Click OnGenerateQuestion)
                     initialSession))).
  apply reach_fire, reach_initial.
Defined.

(* ================================================================= *)
(** ** The results document and its headings *)

(** X17: [formatOutput] does not mark where a text ends: a question
    that goes on with the human-response heading gives the document of
    the shorter question whose human response starts with the rest, so
    the four texts cannot always be read back from the document. *)
Theorem formatOutput_headings_not_escaped (x y z a v : jsstring) :
  formatOutput (x ++ humanHeading ++ y) z a v
  = formatOutput x (y ++ humanHeading ++ z) a v.
Proof.
  unfold formatOutput, humanHeading.
  repeat rewrite <- app_assoc. reflexivity.
Qed.

(* ================================================================= *)
(** ** What the blank test accepts *)

Lemma trimStart_nil (s : jsstring) :
  trimStart s = [] <-> forallb isWhiteSpace s = true.
Proof.
  induction s as [|c s IH]; cbn; [tauto|].
  destruct (isWhiteSpace c); cbn; [exact IH|].
  split; discriminate.
Qed.

Lemma forallb_trimStart (s : jsstring) :
  forallb isWhiteSpace (trimStart s) = forallb isWhiteSpace s.
Proof.
  induction s as [|c s IH]; cbn; [reflexivity|].
  destruct (isWhiteSpace c) eqn:Hc; cbn; [exact IH|].
  rewrite Hc. reflexivity.
Qed.

Lemma forallb_rev (f : N -> bool) (s : jsstring) :
  forallb f (rev s) = forallb f s.
Proof.
  induction s as [|c s IH]; cbn; [reflexivity|].
  rewrite forallb_app, IH. cbn. rewrite andb_true_r. apply andb_comm.
Qed.

(** [trim] empties exactly the texts made of white space only. *)
Lemma truthy_trim (s : jsstring) :
  truthy (trim s) = negb (forallb isWhiteSpace s).
Proof.
  unfold trim, trimEnd.
  destruct (forallb isWhiteSpace s) eqn:Hall; cbn.
  - assert (H : trimStart (rev (trimStart s)) = []).
    { apply trimStart_nil. rewrite forallb_rev, forallb_trimStart.
      exact Hall. }
    rewrite H. reflexivity.
  - destruct (trimStart (rev (trimStart s))) as [|c r] eqn:Hr.
    + apply trimStart_nil in Hr.
      rewrite forallb_rev, forallb_trimStart, Hall in Hr. discriminate Hr.
    + cbn. destruct (rev r ++ [c]) eqn:Happ; [|reflexivity].
      destruct (rev r); discriminate Happ.
Qed.

(** X18: a submission reaches the network exactly when the human
    answer holds a code unit that is not white space (in the sense of
    ECMA-262: blanks, tabs, line ends, no-break and other Unicode
    spaces, the byte order mark); otherwise it only sets the message
    asking for an answer. *)
Theorem submission_needs_visible_answer (svc : Service) (s : Session) :
  (calls (trace (run (handleSubmitAnswer svc s) s)) <> []
   <-> existsb (fun c => negb (isWhiteSpace c)) (userAnswer s) = true)
  /\ (existsb (fun c => negb (isWhiteSpace c)) (userAnswer s) = false ->
      trace (run (handleSubmitAnswer svc s) s)
      = [SetError (lit "Please enter your answer before submitting.")]).
Proof.
  assert (Hex : existsb (fun c => negb (isWhiteSpace c)) (userAnswer s)
                = truthy (trim (userAnswer s))).
  { rewrite truthy_trim. generalize (userAnswer s) as t.
    induction t as [|c t IH]; cbn; [reflexivity|].
    rewrite IH. destruct (isWhiteSpace c); reflexivity. }
  rewrite Hex, handleSubmitAnswer_run. cbv zeta.
  destruct (truthy (trim (userAnswer s))); split.
  - split; [reflexivity|]. intros _.
    outcome svc 0; [outcome svc 1| |]; settle; discriminate.
  - discriminate.
  - split; [|discriminate]. intros H. contradiction H. reflexivity.
  - reflexivity.
Qed.

Lemma submission_needs_visible_answer_witness :
  trace (run (handleSubmitAnswer judgeService blankAnswerSession)
           blankAnswerSession)
  = [SetError (lit "Please enter your answer before submitting.")].
Proof.
  apply (proj2 (submission_needs_visible_answer judgeService
                  blankAnswerSession)).
  reflexivity.
Defined.
